(** * Verification model of [rss_reader/summarizer.py]

    A shallow embedding of the [Summarizer] class: Python [str] values are
    sequences of Unicode code points, Python exceptions are values of
    [exn], and the methods run in a state monad whose state holds the
    instance's cached [_client], the object heap holding the [Article]
    objects, and the sequence of observable events (printed lines, client
    constructions and provider requests).  The provider SDKs are opaque
    collaborators, represented by an environment [Env]. *)

From Stdlib Require Import List ZArith NArith Bool Lia.
From Stdlib Require Import Strings.String Strings.Ascii.
Import ListNotations.
Open Scope list_scope.

(* ------------------------------------------------------------------ *)
(** ** Python strings *)

(** A Python [str]: its code points. *)
Definition text := list N.

(** A Python string literal made of ASCII characters only. *)
Definition py (s : string) : text :=
  map (fun c => N.of_nat (nat_of_ascii c)) (list_ascii_of_string s).

Definition text_eqb (a b : text) : bool :=
  if list_eq_dec N.eq_dec a b then true else false.

Lemma text_eqb_spec (a b : text) : text_eqb a b = true <-> a = b.
Proof.
  unfold text_eqb; destruct (list_eq_dec N.eq_dec a b); split; congruence.
Qed.

(** Decimal rendering of integers, as [str(n)] does. *)
Fixpoint digits_rev (fuel : nat) (n : N) : text :=
  match fuel with
  | O => []
  | S f => (48 + n mod 10)%N :: (if (n <? 10)%N then [] else digits_rev f (n / 10)%N)
  end.

Definition str_N (n : N) : text := rev (digits_rev (S (N.size_nat n)) n).

Definition str_Z (z : Z) : text :=
  if (z <? 0)%Z then 45%N :: str_N (Z.to_N (- z)) else str_N (Z.to_N z).

(** [xs[:stop]] on a Python sequence. *)
Definition py_slice_to {A} (xs : list A) (stop : Z) : list A :=
  let n := Z.of_nat (List.length xs) in
  let stop' := if (stop <? 0)%Z then Z.max 0 (n + stop) else Z.min stop n in
  firstn (Z.to_nat stop') xs.

(* ------------------------------------------------------------------ *)
(** ** Python exceptions *)

Inductive exc_class :=
| KeyError | IndexError | ValueError | AttributeError | ImportError
| APIError            (** any error class of the provider SDKs *)
| KeyboardInterrupt | SystemExit.

(** [except Exception] catches exactly the classes deriving from
    [Exception]; [KeyboardInterrupt] and [SystemExit] derive from
    [BaseException] only. *)
Definition derives_from_Exception (c : exc_class) : bool :=
  match c with
  | KeyboardInterrupt | SystemExit => false
  | _ => true
  end.

(** An exception object: its class and [str(e)]. *)
Record exn := mk_exn { exn_class : exc_class; exn_str : text }.

Inductive Res (A : Type) : Type :=
| Ok (x : A)
| Raise (e : exn).
Arguments Ok {A} x.
Arguments Raise {A} e.

(* ------------------------------------------------------------------ *)
(** ** [str.format] with keyword arguments [title] and [content]

    The scanner follows CPython's [MarkupIterator]: [{{] and [}}] are
    escapes, a lone [}] or a trailing [{] is a [ValueError], and a
    replacement field runs to the [}] that balances its [{].  A field whose
    text is a bare name is looked up among the keyword arguments: [title]
    and [content] are substituted, an empty or all-digit name is a
    positional index (there are no positional arguments: [IndexError]),
    any other name is a [KeyError].  A field using attribute access,
    indexing, a conversion or a format specification (any of
    [. [ ! : { }] in its text) is evaluated by Python's field machinery,
    which the model leaves to the parameter [field_ext]. *)

Section Format.
Variable field_ext : text -> text -> text -> Res text.

Definition is_field_special (c : N) : bool :=
  existsb (N.eqb c) [46; 91; 33; 58; 123; 125]%N.

Definition all_digits (s : text) : bool :=
  forallb (fun c => (48 <=? c)%N && (c <=? 57)%N) s.

Definition digits_value (s : text) : N :=
  fold_left (fun acc c => acc * 10 + (c - 48))%N s 0%N.

Definition format_field (f title content : text) : Res text :=
  if existsb is_field_special f then field_ext f title content
  else if text_eqb f (py "title") then Ok title
  else if text_eqb f (py "content") then Ok content
  else if all_digits f then
    Raise (mk_exn IndexError (py "Replacement index " ++ str_N (digits_value f)
                               ++ py " out of range for positional args tuple"))
  else Raise (mk_exn KeyError ([39%N] ++ f ++ [39%N])).

Definition value_error (msg : string) : Res text :=
  Raise (mk_exn ValueError (py msg)).

(** [acc] holds the output so far, reversed; [buf] the field text so far,
    reversed; [depth] the number of unclosed [{] of the current field. *)
Fixpoint fmt_lit (title content : text) (s : text) (acc : text) : Res text :=
  match s with
  | [] => Ok (rev acc)
  | c :: r =>
      if (c =? 123)%N then
        match r with
        | [] => value_error "Single '{' encountered in format string"
        | c2 :: r2 =>
            if (c2 =? 123)%N then fmt_lit title content r2 (123%N :: acc)
            else fmt_field title content r 1 [] acc
        end
      else if (c =? 125)%N then
        match r with
        | c2 :: r2 =>
            if (c2 =? 125)%N then fmt_lit title content r2 (125%N :: acc)
            else value_error "Single '}' encountered in format string"
        | [] => value_error "Single '}' encountered in format string"
        end
      else fmt_lit title content r (c :: acc)
  end
with fmt_field (title content : text) (s : text) (depth : nat) (buf acc : text)
  : Res text :=
  match s with
  | [] => value_error "expected '}' before end of string"
  | c :: r =>
      if (c =? 123)%N then fmt_field title content r (S depth) (c :: buf) acc
      else if (c =? 125)%N then
        match depth with
        | 0 | 1 =>
            match format_field (rev buf) title content with
            | Ok v => fmt_lit title content r (rev v ++ acc)
            | Raise e => Raise e
            end
        | S d => fmt_field title content r d (c :: buf) acc
        end
      else fmt_field title content r depth (c :: buf) acc
  end.

(** [template.format(title=title, content=content)] *)
Definition py_format (template title content : text) : Res text :=
  fmt_lit title content template [].

End Format.

(* ------------------------------------------------------------------ *)
(** ** Data model *)

(** [fetcher.Article], the two fields this module reads. *)
Record Article := mk_article { title : text; content : text }.

(** References to Python objects. *)
Definition loc := N.

(** The configuration mapping: a [dict] from keys to string values. *)
Definition config := list (text * text).

Fixpoint dict_get (d : config) (k : text) : option text :=
  match d with
  | [] => None
  | (k', v) :: d' => if text_eqb k k' then Some v else dict_get d' k
  end.

Definition dict_get_default (d : config) (k dflt : text) : text :=
  match dict_get d k with Some v => v | None => dflt end.

(** The immutable attributes of a [Summarizer] set by [__init__]. *)
Record Summarizer := mk_summarizer {
  provider : text;
  model : text;
  api_key : option text;
  openai_api_key : option text;
  openai_api_base : text;
  openai_model : text;
  prompt_template : text }.

(** The text returned by [_default_prompt]. *)
Definition _default_prompt : text :=
  [35831; 29992; 20013; 25991; 20026; 20197; 19979; 25991; 31456; 29983;
   25104; 31616; 27905; 25688; 35201; 65288; 51; 45; 53; 21477; 35805;
   65289; 65306; 10; 26631; 39064; 65306; 123; 116; 105; 116; 108; 101;
   125; 10; 20869; 23481; 65306; 123; 99; 111; 110; 116; 101; 110; 116;
   125; 10; 10; 35201; 27714; 65306; 31361; 20986; 26680; 24515; 35266;
   28857; 65292; 24110; 21161; 35835; 32773; 24555; 36895; 21028; 26029;
   26159; 21542; 20540; 24471; 38405; 35835; 21407; 25991; 12290]%N.

(** [Summarizer.__init__] *)
Definition new_Summarizer (cfg : config) : Summarizer := {|
  provider := dict_get_default cfg (py "provider") (py "claude");
  model := dict_get_default cfg (py "model") (py "claude-sonnet-4-20250514");
  api_key := dict_get cfg (py "api_key");
  openai_api_key := dict_get cfg (py "openai_api_key");
  openai_api_base := dict_get_default cfg (py "openai_api_base") (py "https://api.openai.com/v1");
  openai_model := dict_get_default cfg (py "openai_model") (py "gpt-4o-mini");
  prompt_template := dict_get_default cfg (py "summary_prompt") _default_prompt |}.

(** The provider clients: the constructor arguments they were made with. *)
Inductive client :=
| AnthropicClient (key : option text)
| OpenAIClient (key : option text) (base_url : text).

(** The keyword arguments of [messages.create] / [chat.completions.create];
    each message is a (role, content) pair. *)
Record request := mk_request {
  req_model : text;
  req_max_tokens : Z;
  req_messages : list (text * text) }.

(** Items of [message.content] in a Claude response. *)
Inductive content_block :=
| TextBlock (t : text)
| OtherBlock (type_name : text).

(** An item of [response.choices]: its [message.content], which the
    OpenAI SDK types as [Optional[str]]. *)
Record choice := mk_choice { message_content : option text }.

(** The collaborators outside this module: construction of the SDK
    clients (including [import anthropic] / [import openai]), the two
    network calls, and Python's evaluation of non-trivial format fields. *)
Record Env := mk_env {
  anthropic_new : option text -> Res unit;
  openai_new : option text -> text -> Res unit;
  messages_create : client -> request -> Res (list content_block);
  completions_create : client -> request -> Res (list choice);
  format_field_ext : text -> text -> text -> Res text }.

(** Observable effects. *)
Inductive event :=
| Print (line : text)
| ClientCreated (c : client)
| MessagesCreate (c : client) (r : request)
| CompletionsCreate (c : client) (r : request).

(** Mutable state: the instance's [_client], the heap of article objects,
    and the events so far, oldest first. *)
Record St := mk_st {
  _client : option client;
  heap : loc -> Article;
  out : list event }.

(* ------------------------------------------------------------------ *)
(** ** State and exception monad *)

Definition M (A : Type) : Type := St -> Res A * St.

Definition ret {A} (x : A) : M A := fun s => (Ok x, s).

Definition bind {A B} (m : M A) (k : A -> M B) : M B :=
  fun s => match m s with
           | (Ok x, s') => k x s'
           | (Raise e, s') => (Raise e, s')
           end.

Notation "x <- m ;; k" := (bind m (fun x => k))
  (at level 61, m at next level, right associativity).

Definition raise {A} (e : exn) : M A := fun s => (Raise e, s).

Definition lift {A} (r : Res A) : M A := fun s => (r, s).

Definition emit (ev : event) : M unit :=
  fun s => (Ok tt, {| _client := _client s; heap := heap s; out := out s ++ [ev] |}).

Definition print (line : text) : M unit := emit (Print line).

Definition get_client : M (option client) := fun s => (Ok (_client s), s).

Definition set_client (c : option client) : M unit :=
  fun s => (Ok tt, {| _client := c; heap := heap s; out := out s |}).

(** Attribute reads of an article object. *)
Definition load (l : loc) : M Article := fun s => (Ok (heap s l), s).

(** [try: m except Exception as e: h(e)] *)
Definition try_except {A} (m : M A) (h : exn -> M A) : M A :=
  fun s => match m s with
           | (Raise e, s') =>
               if derives_from_Exception (exn_class e) then h e s' else (Raise e, s')
           | r => r
           end.

(* ------------------------------------------------------------------ *)
(** ** The methods *)

(** "暂无内容摘要" *)
Definition no_summary_text : text := [26242; 26080; 20869; 23481; 25688; 35201]%N.

(** "[警告] 未知的 LLM provider: " *)
Definition warn_prefix : text :=
  [91; 35686; 21578; 93; 32; 26410; 30693; 30340]%N ++ py " LLM provider: ".

(** "[错误] LLM 摘要失败 (" *)
Definition error_prefix : text :=
  [91; 38169; 35823; 93]%N ++ py " LLM " ++ [25688; 35201; 22833; 36133]%N ++ py " (".

(** "[摘要] (" *)
Definition progress_prefix : text := [91; 25688; 35201; 93]%N ++ py " (".

Section Methods.
Variable E : Env.
Variable self : Summarizer.

Definition _get_claude_client : M client :=
  c <- get_client ;;
  match c with
  | None =>
      _ <- lift (anthropic_new E (api_key self)) ;;
      let c' := AnthropicClient (api_key self) in
      _ <- set_client (Some c') ;;
      _ <- emit (ClientCreated c') ;;
      ret c'
  | Some c' => ret c'
  end.

Definition _get_openai_client : M client :=
  c <- get_client ;;
  match c with
  | None =>
      _ <- lift (openai_new E (openai_api_key self) (openai_api_base self)) ;;
      let c' := OpenAIClient (openai_api_key self) (openai_api_base self) in
      _ <- set_client (Some c') ;;
      _ <- emit (ClientCreated c') ;;
      ret c'
  | Some c' => ret c'
  end.

Definition index_error : exn := mk_exn IndexError (py "list index out of range").

Definition _summarize_with_claude (prompt : text) : M text :=
  client <- _get_claude_client ;;
  let req := {| req_model := model self; req_max_tokens := 500;
                req_messages := [(py "user", prompt)] |} in
  _ <- emit (MessagesCreate client req) ;;
  message <- lift (messages_create E client req) ;;
  match message with
  | [] => raise index_error
  | TextBlock t :: _ => ret t
  | OtherBlock n :: _ =>
      raise (mk_exn AttributeError
               ([39%N] ++ n ++ py "' object has no attribute 'text'"))
  end.

Definition _summarize_with_openai (prompt : text) : M (option text) :=
  client <- _get_openai_client ;;
  let req := {| req_model := openai_model self; req_max_tokens := 500;
                req_messages := [(py "user", prompt)] |} in
  _ <- emit (CompletionsCreate client req) ;;
  response <- lift (completions_create E client req) ;;
  match response with
  | [] => raise index_error
  | ch :: _ => ret (message_content ch)
  end.

Definition summarize (article : loc) : M (option text) :=
  a <- load article ;;
  if Nat.ltb (List.length (content a)) 100 then
    ret (Some (match content a with [] => no_summary_text | _ => content a end))
  else
    prompt <- lift (py_format (format_field_ext E) (prompt_template self)
                              (title a) (content a)) ;;
    try_except
      (if text_eqb (provider self) (py "claude") then
         s <- _summarize_with_claude prompt ;; ret (Some s)
       else if text_eqb (provider self) (py "openai") then
         _summarize_with_openai prompt
       else
         _ <- print (warn_prefix ++ provider self) ;; ret None)
      (fun e =>
         _ <- print (error_prefix ++ title a ++ py "): " ++ exn_str e) ;;
         ret None).

(** The body of the [for] loop of [summarize_batch], from index [i]. *)
Fixpoint batch_loop (i total : Z) (articles : list loc)
  : M (list (loc * option text)) :=
  match articles with
  | [] => ret []
  | article :: rest =>
      a <- load article ;;
      _ <- print (progress_prefix ++ str_Z (i + 1) ++ py "/" ++ str_Z total
                  ++ py ") " ++ firstn 50 (title a) ++ py "...") ;;
      summary <- summarize article ;;
      results <- batch_loop (i + 1) total rest ;;
      ret ((article, summary) :: results)
  end.

Definition summarize_batch (articles : list loc) (max_articles : Z)
  : M (list (loc * option text)) :=
  batch_loop 0 (Z.min (Z.of_nat (List.length articles)) max_articles)
             (py_slice_to articles max_articles).

End Methods.

(* ------------------------------------------------------------------ *)
(** ** Specification-side definitions *)

(** The batch contract as the spec words it: the prefix of
    [min(len(articles), N)] articles, each paired, in order, with the
    result of [summarize] on it, the calls made one after the other. *)
Fixpoint batch_spec (E : Env) (self : Summarizer) (articles : list loc)
  : M (list (loc * option text)) :=
  match articles with
  | [] => ret []
  | article :: rest =>
      summary <- summarize E self article ;;
      results <- batch_spec E self rest ;;
      ret ((article, summary) :: results)
  end.

(** Templates written with the placeholders [{title}] and [{content}], the
    escapes [{{] and [}}], and literal text without braces. *)
Inductive piece :=
| Lit (s : text)
| TitleField
| ContentField
| LBraceEsc
| RBraceEsc.

Definition piece_src (p : piece) : text :=
  match p with
  | Lit s => s
  | TitleField => py "{title}"
  | ContentField => py "{content}"
  | LBraceEsc => py "{{"
  | RBraceEsc => py "}}"
  end.

Definition template_of (ps : list piece) : text := List.concat (map piece_src ps).

(** The written template with the title and content put verbatim in the
    placeholders. *)
Definition render_spec (t c : text) (ps : list piece) : text :=
  List.concat (map (fun p => match p with
                        | Lit s => s
                        | TitleField => t
                        | ContentField => c
                        | LBraceEsc => [123%N]
                        | RBraceEsc => [125%N]
                        end) ps).

Definition brace_free (s : text) : bool :=
  forallb (fun x => negb (x =? 123)%N && negb (x =? 125)%N) s.

Definition lit_ok (p : piece) : bool :=
  match p with Lit s => brace_free s | _ => true end.

(** A call made by a client of the module on the one instance. *)
Inductive call :=
| CallSummarize (l : loc)
| CallBatch (ls : list loc) (max_articles : Z).

(** Run a call; an exception it raises is handled by the caller, and the
    instance is used again afterwards. *)
Definition run_call (E : Env) (self : Summarizer) (c : call) : M unit :=
  match c with
  | CallSummarize l => _ <- summarize E self l ;; ret tt
  | CallBatch ls n => _ <- summarize_batch E self ls n ;; ret tt
  end.

Fixpoint run_calls (E : Env) (self : Summarizer) (cs : list call) (s : St) : St :=
  match cs with
  | [] => s
  | c :: cs' => run_calls E self cs' (snd (run_call E self c s))
  end.

(** Clients recorded as constructed, in order. *)
Fixpoint created_clients (evs : list event) : list client :=
  match evs with
  | [] => []
  | ClientCreated c :: evs' => c :: created_clients evs'
  | _ :: evs' => created_clients evs'
  end.

(** A cached client matches the configured [provider]. *)
Definition client_matches (self : Summarizer) (c : client) : Prop :=
  (provider self = py "claude" /\ c = AnthropicClient (api_key self)) \/
  (provider self = py "openai" /\
   c = OpenAIClient (openai_api_key self) (openai_api_base self)).

Definition client_inv (self : Summarizer) (s : St) : Prop :=
  match _client s with
  | None => created_clients (out s) = []
  | Some c => client_matches self c /\ created_clients (out s) = [c]
  end.

(** A provider request carries the prompt [p] as its single user message. *)
Definition carries (p : text) (ev : event) : Prop :=
  match ev with
  | MessagesCreate _ r | CompletionsCreate _ r => req_messages r = [(py "user", p)]
  | _ => True
  end.

(* ------------------------------------------------------------------ *)
(** * Proofs *)

From Stdlib Require Import Classes.RelationClasses.

(** ** Computations that keep a preorder on states *)

Section Keeps.
Context (P : St -> St -> Prop) `{PreOrder _ P}.

Definition keeps {A} (m : M A) : Prop := forall s, P s (snd (m s)).

Lemma keeps_ret {A} (x : A) : keeps (ret x).
Proof. intro s; simpl; reflexivity. Qed.

Lemma keeps_lift {A} (r : Res A) : keeps (lift r).
Proof. intro s; simpl; reflexivity. Qed.

Lemma keeps_raise {A} (e : exn) : keeps (A := A) (raise e).
Proof. intro s; simpl; reflexivity. Qed.

Lemma keeps_load (l : loc) : keeps (load l).
Proof. intro s; simpl; reflexivity. Qed.

Lemma keeps_get_client : keeps get_client.
Proof. intro s; simpl; reflexivity. Qed.

Lemma keeps_bind {A B} (m : M A) (k : A -> M B) :
  keeps m -> (forall x, keeps (k x)) -> keeps (bind m k).
Proof.
  intros Hm Hk s; unfold bind.
  specialize (Hm s); destruct (m s) as [[x|e] s'] eqn:Hs; simpl in *.
  - transitivity s'; [exact Hm | apply Hk].
  - exact Hm.
Qed.

Lemma keeps_try {A} (m : M A) (h : exn -> M A) :
  keeps m -> (forall e, keeps (h e)) -> keeps (try_except m h).
Proof.
  intros Hm Hh s; unfold try_except.
  specialize (Hm s); destruct (m s) as [[x|e] s'] eqn:Hs; simpl in *; [exact Hm|].
  destruct (derives_from_Exception (exn_class e)); simpl; [|exact Hm].
  transitivity s'; [exact Hm | apply Hh].
Qed.

End Keeps.

Ltac keeps_tac leaf :=
  repeat match goal with
  | |- PreOrder _ => typeclasses eauto
  | |- forall _, _ => intro
  | |- keeps _ (bind _ _) => apply keeps_bind
  | |- keeps _ (try_except _ _) => apply keeps_try
  | |- keeps _ (ret _) => apply keeps_ret
  | |- keeps _ (lift _) => apply keeps_lift
  | |- keeps _ (raise _) => apply keeps_raise
  | |- keeps _ (load _) => apply keeps_load
  | |- keeps _ get_client => apply keeps_get_client
  | |- keeps _ (let _ := _ in _) => cbv zeta
  | |- keeps _ (if ?b then _ else _) => let Hb := fresh "Hb" in destruct b eqn:Hb
  | |- keeps _ (match ?x with _ => _ end) => destruct x
  | _ => leaf
  end.

(** ** The heap is only read, and events are only appended *)

Definition frame_rel (s s' : St) : Prop :=
  heap s' = heap s /\ exists new, out s' = out s ++ new.

#[export] Instance frame_rel_preorder : PreOrder frame_rel.
Proof.
  split.
  - intro s; split; [reflexivity | exists []; now rewrite app_nil_r].
  - intros s1 s2 s3 [H1 [n1 E1]] [H2 [n2 E2]]; split; [congruence|].
    exists (n1 ++ n2); rewrite E2, E1; symmetry; apply app_assoc.
Qed.

Lemma keeps_frame_emit (ev : event) : keeps frame_rel (emit ev).
Proof. intro s; split; [reflexivity | now exists [ev]]. Qed.

Lemma keeps_frame_set_client (c : option client) : keeps frame_rel (set_client c).
Proof. intro s; split; [reflexivity | exists []; simpl; now rewrite app_nil_r]. Qed.

Ltac frame_leaf :=
  first [ apply keeps_frame_emit | apply keeps_frame_set_client ].

Lemma frame_summarize (E : Env) (self : Summarizer) (l : loc) :
  keeps frame_rel (summarize E self l).
Proof.
  unfold summarize, _summarize_with_claude, _summarize_with_openai,
    _get_claude_client, _get_openai_client, print.
  keeps_tac frame_leaf.
Qed.

Lemma frame_batch_loop (E : Env) (self : Summarizer) (ls : list loc) :
  forall i total, keeps frame_rel (batch_loop E self i total ls).
Proof.
  induction ls as [|l ls IH]; intros i total; simpl; unfold print;
    keeps_tac ltac:(first [ apply frame_summarize | apply IH | frame_leaf ]).
Qed.

Lemma frame_summarize_batch (E : Env) (self : Summarizer) ls n :
  keeps frame_rel (summarize_batch E self ls n).
Proof. apply frame_batch_loop. Qed.

(** ** A cached client is never replaced *)

Definition stable_rel (s s' : St) : Prop :=
  forall c, _client s = Some c -> _client s' = Some c.

#[export] Instance stable_rel_preorder : PreOrder stable_rel.
Proof.
  split; [intros s c H; exact H | intros s1 s2 s3 H1 H2 c H; auto].
Qed.

Lemma keeps_stable_emit (ev : event) : keeps stable_rel (emit ev).
Proof. intros s c H; exact H. Qed.

Lemma keeps_stable_get_claude (E : Env) (self : Summarizer) :
  keeps stable_rel (_get_claude_client E self).
Proof.
  intros s c H; unfold _get_claude_client, bind, get_client; simpl.
  rewrite H; exact H.
Qed.

Lemma keeps_stable_get_openai (E : Env) (self : Summarizer) :
  keeps stable_rel (_get_openai_client E self).
Proof.
  intros s c H; unfold _get_openai_client, bind, get_client; simpl.
  rewrite H; exact H.
Qed.

Ltac stable_leaf :=
  first [ apply keeps_stable_emit | apply keeps_stable_get_claude
        | apply keeps_stable_get_openai ].

Lemma stable_summarize (E : Env) (self : Summarizer) (l : loc) :
  keeps stable_rel (summarize E self l).
Proof.
  unfold summarize, _summarize_with_claude, _summarize_with_openai, print.
  keeps_tac stable_leaf.
Qed.

Lemma stable_batch_loop (E : Env) (self : Summarizer) (ls : list loc) :
  forall i total, keeps stable_rel (batch_loop E self i total ls).
Proof.
  induction ls as [|l ls IH]; intros i total; simpl; unfold print;
    keeps_tac ltac:(first [ apply stable_summarize | apply IH | stable_leaf ]).
Qed.

Lemma stable_run_call (E : Env) (self : Summarizer) (c : call) :
  keeps stable_rel (run_call E self c).
Proof.
  destruct c; simpl; unfold summarize_batch;
    keeps_tac ltac:(first [ apply stable_summarize | apply stable_batch_loop ]).
Qed.

Lemma stable_run_calls (E : Env) (self : Summarizer) (cs : list call) :
  forall s, stable_rel s (run_calls E self cs s).
Proof.
  induction cs as [|c cs IH]; intro s; simpl; [reflexivity|].
  transitivity (snd (run_call E self c s)); [apply stable_run_call | apply IH].
Qed.

(** ** The client invariant *)

Definition is_created (ev : event) : bool :=
  match ev with ClientCreated _ => true | _ => false end.

Lemma created_clients_app (l1 l2 : list event) :
  created_clients (l1 ++ l2) = created_clients l1 ++ created_clients l2.
Proof. induction l1 as [|[] l1 IH]; simpl; try rewrite IH; reflexivity. Qed.

Definition inv_rel (self : Summarizer) (s s' : St) : Prop :=
  client_inv self s -> client_inv self s'.

#[export] Instance inv_rel_preorder (self : Summarizer) : PreOrder (inv_rel self).
Proof. split; [intros s H; exact H | intros s1 s2 s3 H1 H2 H; auto]. Qed.

Lemma keeps_inv_emit (self : Summarizer) (ev : event) :
  is_created ev = false -> keeps (inv_rel self) (emit ev).
Proof.
  intros Hev s; unfold inv_rel, client_inv; simpl.
  rewrite created_clients_app.
  destruct ev; try discriminate; simpl; rewrite app_nil_r; auto.
Qed.

Lemma keeps_inv_get_claude (E : Env) (self : Summarizer) :
  provider self = py "claude" -> keeps (inv_rel self) (_get_claude_client E self).
Proof.
  intros Hp s Hs; unfold _get_claude_client, bind, get_client, lift; simpl.
  destruct (_client s) as [c|] eqn:Hc.
  - simpl; unfold client_inv in *; rewrite Hc in *; exact Hs.
  - destruct (anthropic_new E (api_key self)); simpl.
    + red in Hs |- *; rewrite Hc in Hs; simpl.
      rewrite created_clients_app, Hs; simpl.
      split; [left; split; congruence | reflexivity].
    + unfold client_inv in *; rewrite Hc in *; exact Hs.
Qed.

Lemma keeps_inv_get_openai (E : Env) (self : Summarizer) :
  provider self = py "openai" -> keeps (inv_rel self) (_get_openai_client E self).
Proof.
  intros Hp s Hs; unfold _get_openai_client, bind, get_client, lift; simpl.
  destruct (_client s) as [c|] eqn:Hc.
  - simpl; unfold client_inv in *; rewrite Hc in *; exact Hs.
  - destruct (openai_new E (openai_api_key self) (openai_api_base self)); simpl.
    + red in Hs |- *; rewrite Hc in Hs; simpl.
      rewrite created_clients_app, Hs; simpl.
      split; [right; split; congruence | reflexivity].
    + unfold client_inv in *; rewrite Hc in *; exact Hs.
Qed.

Ltac inv_leaf :=
  first [ apply keeps_inv_emit; reflexivity
        | apply keeps_inv_get_claude; apply text_eqb_spec; assumption
        | apply keeps_inv_get_openai; apply text_eqb_spec; assumption ].

Lemma inv_summarize (E : Env) (self : Summarizer) (l : loc) :
  keeps (inv_rel self) (summarize E self l).
Proof.
  unfold summarize, _summarize_with_claude, _summarize_with_openai, print.
  keeps_tac inv_leaf.
Qed.

Lemma inv_batch_loop (E : Env) (self : Summarizer) (ls : list loc) :
  forall i total, keeps (inv_rel self) (batch_loop E self i total ls).
Proof.
  induction ls as [|l ls IH]; intros i total; simpl; unfold print;
    keeps_tac ltac:(first [ apply inv_summarize | apply IH | inv_leaf ]).
Qed.

Lemma inv_run_call (E : Env) (self : Summarizer) (c : call) :
  keeps (inv_rel self) (run_call E self c).
Proof.
  destruct c; simpl; unfold summarize_batch;
    keeps_tac ltac:(first [ apply inv_summarize | apply inv_batch_loop ]).
Qed.

Lemma inv_run_calls (E : Env) (self : Summarizer) (cs : list call) :
  forall s, client_inv self s -> client_inv self (run_calls E self cs s).
Proof.
  induction cs as [|c cs IH]; intros s Hs; simpl; [exact Hs|].
  apply IH; exact (inv_run_call E self c s Hs).
Qed.

(** ** Results do not depend on the events printed so far *)

Definition st_eqv (s1 s2 : St) : Prop := _client s1 = _client s2 /\ heap s1 = heap s2.

#[export] Instance st_eqv_equiv : Equivalence st_eqv.
Proof.
  split.
  - intro s; split; reflexivity.
  - intros s1 s2 [H1 H2]; split; symmetry; assumption.
  - intros s1 s2 s3 [H1 H2] [H3 H4]; split; etransitivity; eassumption.
Qed.

(** Two computations with the same result and the same client and heap
    from states that agree on the client and the heap. *)
Definition sim {A} (m1 m2 : M A) : Prop :=
  forall s1 s2, st_eqv s1 s2 ->
    fst (m1 s1) = fst (m2 s2) /\ st_eqv (snd (m1 s1)) (snd (m2 s2)).

Lemma sim_ret {A} (x : A) : sim (ret x) (ret x).
Proof. intros s1 s2 H; split; [reflexivity | exact H]. Qed.

Lemma sim_lift {A} (r : Res A) : sim (lift r) (lift r).
Proof. intros s1 s2 H; split; [reflexivity | exact H]. Qed.

Lemma sim_raise {A} (e : exn) : sim (A := A) (raise e) (raise e).
Proof. intros s1 s2 H; split; [reflexivity | exact H]. Qed.

Lemma sim_emit (ev : event) : sim (emit ev) (emit ev).
Proof. intros s1 s2 H; split; [reflexivity | exact H]. Qed.

Lemma sim_load (l : loc) : sim (load l) (load l).
Proof. intros s1 s2 [H1 H2]; simpl; rewrite H2; split; [reflexivity | split; assumption]. Qed.

Lemma sim_get_client : sim get_client get_client.
Proof. intros s1 s2 [H1 H2]; simpl; rewrite H1; split; [reflexivity | split; assumption]. Qed.

Lemma sim_set_client (c : option client) : sim (set_client c) (set_client c).
Proof. intros s1 s2 [H1 H2]; split; [reflexivity | split; simpl; auto]. Qed.

Lemma sim_bind {A B} (m1 m2 : M A) (k1 k2 : A -> M B) :
  sim m1 m2 -> (forall x, sim (k1 x) (k2 x)) -> sim (bind m1 k1) (bind m2 k2).
Proof.
  intros Hm Hk s1 s2 H; unfold bind.
  destruct (Hm s1 s2 H) as [Hr He].
  destruct (m1 s1) as [r1 t1], (m2 s2) as [r2 t2]; simpl in *; subst r2.
  destruct r1 as [x|e]; [apply Hk; exact He | split; [reflexivity | exact He]].
Qed.

Lemma sim_try {A} (m1 m2 : M A) (h1 h2 : exn -> M A) :
  sim m1 m2 -> (forall e, sim (h1 e) (h2 e)) ->
  sim (try_except m1 h1) (try_except m2 h2).
Proof.
  intros Hm Hh s1 s2 H; unfold try_except.
  destruct (Hm s1 s2 H) as [Hr He].
  destruct (m1 s1) as [r1 t1], (m2 s2) as [r2 t2]; simpl in *; subst r2.
  destruct r1 as [x|e]; [split; [reflexivity | exact He]|].
  destruct (derives_from_Exception (exn_class e));
    [apply Hh; exact He | split; [reflexivity | exact He]].
Qed.

(** A step on the left that only reads the state or prints. *)
Lemma sim_bind_l {A B} (m : M A) (k : A -> M B) (m2 : M B) :
  (forall s, exists x s', m s = (Ok x, s') /\ st_eqv s s') ->
  (forall x, sim (k x) m2) -> sim (bind m k) m2.
Proof.
  intros Hm Hk s1 s2 H; unfold bind.
  destruct (Hm s1) as (x & s' & Hs & H'); rewrite Hs.
  apply Hk; rewrite <- H'; exact H.
Qed.

Ltac sim_tac leaf :=
  repeat match goal with
  | |- forall _, _ => intro
  | |- sim (bind _ _) (bind _ _) => apply sim_bind
  | |- sim (try_except _ _) (try_except _ _) => apply sim_try
  | |- sim (ret _) _ => apply sim_ret
  | |- sim (lift _) _ => apply sim_lift
  | |- sim (raise _) _ => apply sim_raise
  | |- sim (emit _) _ => apply sim_emit
  | |- sim (load _) _ => apply sim_load
  | |- sim get_client _ => apply sim_get_client
  | |- sim (set_client _) _ => apply sim_set_client
  | |- sim (let _ := _ in _) _ => cbv zeta
  | |- sim (if ?b then _ else _) _ => destruct b
  | |- sim (match ?x with _ => _ end) _ => destruct x
  | _ => leaf
  end.

Lemma sim_summarize (E : Env) (self : Summarizer) (l : loc) :
  sim (summarize E self l) (summarize E self l).
Proof.
  unfold summarize, _summarize_with_claude, _summarize_with_openai,
    _get_claude_client, _get_openai_client, print.
  sim_tac idtac.
Qed.

Lemma batch_loop_sim (E : Env) (self : Summarizer) (ls : list loc) :
  forall i total, sim (batch_loop E self i total ls) (batch_spec E self ls).
Proof.
  induction ls as [|l ls IH]; intros i total; simpl; [apply sim_ret|].
  apply sim_bind_l; [intro s; eexists; eexists; split; reflexivity|intro a].
  apply sim_bind_l; [intro s; eexists; eexists; split; [reflexivity | split; reflexivity]|intros _].
  apply sim_bind; [apply sim_summarize | intro x].
  apply sim_bind; [apply IH | intro rs]; apply sim_ret.
Qed.

Lemma batch_spec_fst (E : Env) (self : Summarizer) (ls : list loc) :
  forall s rs, fst (batch_spec E self ls s) = Ok rs -> map fst rs = ls.
Proof.
  induction ls as [|l ls IH]; intros s rs H; simpl in H.
  - injection H as <-; reflexivity.
  - unfold bind in H.
    destruct (summarize E self l s) as [[x|e] s1]; [|discriminate].
    destruct (batch_spec E self ls s1) as [[rs1|e] s2] eqn:Hb; [|discriminate].
    simpl in H; injection H as <-; simpl; f_equal.
    apply (IH s1); rewrite Hb; reflexivity.
Qed.

Lemma py_slice_to_nonneg {A} (xs : list A) (n : Z) :
  (0 <= n)%Z -> py_slice_to xs n = firstn (Z.to_nat n) xs.
Proof.
  intro Hn; unfold py_slice_to.
  destruct (Z.ltb_spec n 0); [lia|].
  destruct (Z.le_ge_cases n (Z.of_nat (List.length xs))) as [Hle|Hge].
  - rewrite Z.min_l by exact Hle; reflexivity.
  - rewrite Z.min_r by lia; rewrite Nat2Z.id, !firstn_all2; [reflexivity| |reflexivity].
    lia.
Qed.

(** ** Rendering of templates written with [{title}] and [{content}] *)

Lemma fmt_lit_brace_free fe t c (s rest acc : text) :
  brace_free s = true ->
  fmt_lit fe t c (s ++ rest) acc = fmt_lit fe t c rest (rev s ++ acc).
Proof.
  revert acc; induction s as [|x s IH]; intros acc Hs; simpl; [reflexivity|].
  simpl in Hs; apply andb_prop in Hs as [Hx Hs]; apply andb_prop in Hx as [H1 H2].
  apply negb_true_iff in H1, H2; rewrite H1, H2, IH by exact Hs.
  rewrite <- app_assoc; reflexivity.
Qed.

Lemma fmt_lit_pieces fe t c (ps : list piece) :
  Forall (fun p => lit_ok p = true) ps ->
  forall rest acc,
  fmt_lit fe t c (template_of ps ++ rest) acc
  = fmt_lit fe t c rest (rev (render_spec t c ps) ++ acc).
Proof.
  induction 1 as [|p ps Hp Hps IH]; intros rest acc; [reflexivity|].
  unfold template_of, render_spec; simpl; fold (template_of ps) (render_spec t c ps).
  rewrite <- app_assoc, rev_app_distr, <- app_assoc.
  destruct p; simpl in Hp.
  - rewrite fmt_lit_brace_free by exact Hp; apply IH.
  - simpl; apply IH.
  - simpl; apply IH.
  - simpl; apply IH.
  - simpl; apply IH.
Qed.

Theorem py_format_pieces fe t c (ps : list piece) :
  Forall (fun p => lit_ok p = true) ps ->
  py_format fe (template_of ps) t c = Ok (render_spec t c ps).
Proof.
  intro Hps; unfold py_format.
  rewrite <- (app_nil_r (template_of ps)), fmt_lit_pieces by exact Hps.
  simpl; rewrite app_nil_r, rev_involutive; reflexivity.
Qed.

(** ** Every provider request carries the prompt *)

Definition req_rel (p : text) (s s' : St) : Prop :=
  exists new, out s' = out s ++ new /\ Forall (carries p) new.

#[export] Instance req_rel_preorder (p : text) : PreOrder (req_rel p).
Proof.
  split.
  - intro s; exists []; split; [now rewrite app_nil_r | constructor].
  - intros s1 s2 s3 [n1 [E1 F1]] [n2 [E2 F2]]; exists (n1 ++ n2); split.
    + rewrite E2, E1; symmetry; apply app_assoc.
    + apply Forall_app; split; assumption.
Qed.

Lemma keeps_req_emit (p : text) (ev : event) :
  carries p ev -> keeps (req_rel p) (emit ev).
Proof. intros H s; exists [ev]; split; [reflexivity | constructor; [exact H | constructor]]. Qed.

Lemma keeps_req_set_client (p : text) (c : option client) :
  keeps (req_rel p) (set_client c).
Proof. intro s; exists []; split; [simpl; now rewrite app_nil_r | constructor]. Qed.

Ltac req_leaf :=
  first [ apply keeps_req_set_client
        | apply keeps_req_emit; simpl; first [ exact I | reflexivity ] ].

Lemma req_provider_branch (E : Env) (self : Summarizer) (p t : text) :
  keeps (req_rel p)
    (try_except
      (if text_eqb (provider self) (py "claude") then
         s <- _summarize_with_claude E self p ;; ret (Some s)
       else if text_eqb (provider self) (py "openai") then
         _summarize_with_openai E self p
       else
         _ <- print (warn_prefix ++ provider self) ;; ret None)
      (fun e =>
         _ <- print (error_prefix ++ t ++ py "): " ++ exn_str e) ;;
         ret None)).
Proof.
  unfold _summarize_with_claude, _summarize_with_openai,
    _get_claude_client, _get_openai_client, print.
  keeps_tac req_leaf.
Qed.

(** ** [summarize] on long content *)

Definition provider_dispatch (E : Env) (self : Summarizer) (prompt t : text)
  : M (option text) :=
  try_except
    (if text_eqb (provider self) (py "claude") then
       s <- _summarize_with_claude E self prompt ;; ret (Some s)
     else if text_eqb (provider self) (py "openai") then
       _summarize_with_openai E self prompt
     else
       _ <- print (warn_prefix ++ provider self) ;; ret None)
    (fun e =>
       _ <- print (error_prefix ++ t ++ py "): " ++ exn_str e) ;;
       ret None).

Lemma text_eqb_false (a b : text) : a <> b -> text_eqb a b = false.
Proof. intro H; destruct (text_eqb a b) eqn:E; [apply text_eqb_spec in E; contradiction | reflexivity]. Qed.

Lemma summarize_long (E : Env) (self : Summarizer) (l : loc) (st : St) (p : text) :
  (100 <= List.length (content (heap st l)))%nat ->
  py_format (format_field_ext E) (prompt_template self)
            (title (heap st l)) (content (heap st l)) = Ok p ->
  summarize E self l st = provider_dispatch E self p (title (heap st l)) st.
Proof.
  intros Hlen Hf; unfold summarize, bind at 1, load.
  replace (Nat.ltb (List.length (content (heap st l))) 100) with false
    by (symmetry; apply Nat.ltb_ge; exact Hlen).
  unfold bind at 1, lift; rewrite Hf; reflexivity.
Qed.

Lemma summarize_long_format_error (E : Env) (self : Summarizer) (l : loc) (st : St) e :
  (100 <= List.length (content (heap st l)))%nat ->
  py_format (format_field_ext E) (prompt_template self)
            (title (heap st l)) (content (heap st l)) = Raise e ->
  summarize E self l st = (Raise e, st).
Proof.
  intros Hlen Hf; unfold summarize, bind at 1, load.
  replace (Nat.ltb (List.length (content (heap st l))) 100) with false
    by (symmetry; apply Nat.ltb_ge; exact Hlen).
  unfold bind at 1, lift; rewrite Hf; reflexivity.
Qed.

(** ** Concrete inputs *)

Definition wx_heap (l : loc) : Article :=
  match l with
  | 0%N => mk_article (py "A") []
  | 1%N => mk_article (py "B") (repeat 120%N 50)
  | _ => mk_article (py "C") (repeat 120%N 200)
  end.

Definition wx_st : St := mk_st None wx_heap [].

(** Providers that answer, or that fail with an SDK error. *)
Definition wx_env (fail : bool) : Env :=
  mk_env (fun _ => Ok tt) (fun _ _ => Ok tt)
    (fun _ _ => if fail then Raise (mk_exn APIError (py "timeout"))
                else Ok [TextBlock (py "S")])
    (fun _ _ => if fail then Raise (mk_exn APIError (py "timeout"))
                else Ok [mk_choice (Some (py "S"))])
    (fun _ _ _ => Ok []).

Definition wx_default : Summarizer := new_Summarizer [].

Definition cfg_url_template : config := [(py "summary_prompt", py "{url}")].

(* ------------------------------------------------------------------ *)
(** ** Claims *)

(** C1: an article whose content is non-empty and shorter than 100 code
    points is summarized as that content, and one with empty content as
    the placeholder "暂无内容摘要"; in both cases the state is unchanged:
    no client is made, no request is sent and nothing is printed. *)
Theorem summarize_short_circuit (E : Env) (self : Summarizer) (st : St) (l : loc) :
  (content (heap st l) <> [] -> (List.length (content (heap st l)) < 100)%nat ->
   summarize E self l st = (Ok (Some (content (heap st l))), st)) /\
  (content (heap st l) = [] ->
   summarize E self l st = (Ok (Some no_summary_text), st)).
Proof.
  split.
  - intros Hne Hlen; unfold summarize, bind, load.
    apply Nat.ltb_lt in Hlen; rewrite Hlen.
    destruct (content (heap st l)); [contradiction | reflexivity].
  - intro He; unfold summarize, bind, load; rewrite He; reflexivity.
Qed.

Lemma summarize_short_circuit_witness :
  (content (heap wx_st 1%N) <> [] /\ (List.length (content (heap wx_st 1%N)) < 100)%nat /\
   summarize (wx_env false) wx_default 1%N wx_st
   = (Ok (Some (content (heap wx_st 1%N))), wx_st)) /\
  (content (heap wx_st 0%N) = [] /\
   summarize (wx_env false) wx_default 0%N wx_st = (Ok (Some no_summary_text), wx_st)).
Proof.
  split; [split; [discriminate | split] | split; [reflexivity |]].
  - simpl; lia.
  - apply (proj1 (summarize_short_circuit (wx_env false) wx_default wx_st 1%N));
      [discriminate | simpl; lia].
  - apply (proj2 (summarize_short_circuit (wx_env false) wx_default wx_st 0%N)).
    reflexivity.
Defined.

(** C2 (code bug): the template is rendered before the [try], so a
    configured [summary_prompt] naming a field other than [title] and
    [content] makes [summarize] raise [KeyError] out to the caller, for
    every provider environment, on an article with 200 code points of
    content. *)
Theorem summarize_template_keyerror_escapes (E : Env) :
  summarize E (new_Summarizer cfg_url_template) 2%N wx_st
  = (Raise (mk_exn KeyError (py "'url'")), wx_st).
Proof. reflexivity. Qed.

(** C3 (counterexample): with [max_articles = -1] the slice
    [articles[:-1]] drops only the last article, so three articles give
    two pairs, not [min(3, -1) = -1]. *)
Lemma summarize_batch_negative_max_counterexample :
  match fst (summarize_batch (wx_env false) wx_default [0; 1; 1]%N (-1) wx_st) with
  | Ok rs => Z.of_nat (List.length rs) <> Z.min (Z.of_nat 3) (-1)
  | Raise _ => False
  end.
Proof. vm_compute; discriminate. Qed.

(** C3 (amended): for every [max_articles = N >= 0], [summarize_batch]
    returns what summarizing the first [N] articles one after the other
    returns ([batch_spec]); when it returns, it returns exactly
    [min(len(articles), N)] pairs whose first components are that prefix,
    in order. *)
Theorem summarize_batch_prefix (E : Env) (self : Summarizer) (arts : list loc)
    (N : Z) (st : St) :
  (0 <= N)%Z ->
  fst (summarize_batch E self arts N st)
  = fst (batch_spec E self (firstn (Z.to_nat N) arts) st) /\
  (forall rs, fst (summarize_batch E self arts N st) = Ok rs ->
     Z.of_nat (List.length rs) = Z.min (Z.of_nat (List.length arts)) N /\
     map fst rs = firstn (Z.to_nat N) arts).
Proof.
  intro HN.
  assert (Hsim : fst (summarize_batch E self arts N st)
                 = fst (batch_spec E self (firstn (Z.to_nat N) arts) st)).
  { unfold summarize_batch; rewrite py_slice_to_nonneg by exact HN.
    apply (batch_loop_sim E self _ 0 _ st st); reflexivity. }
  split; [exact Hsim|].
  intros rs Hrs; rewrite Hsim in Hrs.
  apply batch_spec_fst in Hrs.
  split; [|exact Hrs].
  rewrite <- (length_map fst rs), Hrs, length_firstn; lia.
Qed.

Lemma summarize_batch_prefix_witness :
  (0 <= 2)%Z /\
  fst (summarize_batch (wx_env false) wx_default [0; 1; 2]%N 2 wx_st)
  = fst (batch_spec (wx_env false) wx_default (firstn (Z.to_nat 2) [0; 1; 2]%N) wx_st) /\
  (forall rs, fst (summarize_batch (wx_env false) wx_default [0; 1; 2]%N 2 wx_st) = Ok rs ->
     Z.of_nat (List.length rs) = Z.min (Z.of_nat (List.length [0; 1; 2]%N)) 2 /\
     map fst rs = firstn (Z.to_nat 2) [0; 1; 2]%N).
Proof.
  split; [lia|].
  apply (summarize_batch_prefix (wx_env false) wx_default [0; 1; 2]%N 2 wx_st).
  lia.
Defined.

(** C4: on an article of at least 100 code points whose template renders
    to [p], with provider "claude" or "openai", if the provider-specific
    call raises an exception deriving from [Exception] (the Python errors;
    [KeyboardInterrupt] and [SystemExit] are not errors), [summarize]
    returns [None] normally, in the state the failed call left, with one
    more printed line holding the article title and [str(e)]. *)
Theorem summarize_provider_error_absorbed (E : Env) (self : Summarizer)
    (st : St) (l : loc) (p : text) (e : exn) (s' : St) :
  (100 <= List.length (content (heap st l)))%nat ->
  py_format (format_field_ext E) (prompt_template self)
            (title (heap st l)) (content (heap st l)) = Ok p ->
  derives_from_Exception (exn_class e) = true ->
  (provider self = py "claude" /\ _summarize_with_claude E self p st = (Raise e, s')) \/
  (provider self = py "openai" /\ _summarize_with_openai E self p st = (Raise e, s')) ->
  summarize E self l st
  = (Ok None, {| _client := _client s'; heap := heap s';
                 out := out s' ++ [Print (error_prefix ++ title (heap st l)
                                          ++ py "): " ++ exn_str e)] |}).
Proof.
  intros Hlen Hf Hexc Hcall.
  rewrite (summarize_long E self l st p Hlen Hf); unfold provider_dispatch, try_except.
  destruct Hcall as [[Hp Hc] | [Hp Hc]]; rewrite Hp.
  - replace (text_eqb (py "claude") (py "claude")) with true by reflexivity.
    unfold bind at 1; rewrite Hc, Hexc; reflexivity.
  - replace (text_eqb (py "openai") (py "claude")) with false by reflexivity.
    replace (text_eqb (py "openai") (py "openai")) with true by reflexivity.
    rewrite Hc, Hexc; reflexivity.
Qed.

Definition wx_prompt : text :=
  match py_format (format_field_ext (wx_env true)) (prompt_template wx_default)
                  (title (wx_heap 2%N)) (content (wx_heap 2%N)) with
  | Ok p => p
  | Raise _ => []
  end.

Lemma summarize_provider_error_absorbed_witness :
  let s' := snd (_summarize_with_claude (wx_env true) wx_default wx_prompt wx_st) in
  let e := mk_exn APIError (py "timeout") in
  (100 <= List.length (content (heap wx_st 2%N)))%nat /\
  py_format (format_field_ext (wx_env true)) (prompt_template wx_default)
            (title (heap wx_st 2%N)) (content (heap wx_st 2%N)) = Ok wx_prompt /\
  derives_from_Exception (exn_class e) = true /\
  summarize (wx_env true) wx_default 2%N wx_st
  = (Ok None, {| _client := _client s'; heap := heap s';
                 out := out s' ++ [Print (error_prefix ++ title (heap wx_st 2%N)
                                          ++ py "): " ++ exn_str e)] |}).
Proof.
  intros s' e.
  assert (Hlen : (100 <= List.length (content (heap wx_st 2%N)))%nat) by (simpl; lia).
  assert (Hf : py_format (format_field_ext (wx_env true)) (prompt_template wx_default)
            (title (heap wx_st 2%N)) (content (heap wx_st 2%N)) = Ok wx_prompt)
    by reflexivity.
  split; [exact Hlen | split; [exact Hf | split; [reflexivity|]]].
  apply (summarize_provider_error_absorbed (wx_env true) wx_default wx_st 2%N
           wx_prompt e s' Hlen Hf); [reflexivity|].
  left; split; reflexivity.
Defined.

(** C5 (code bug): [summarize_batch] has no [try] of its own, so the
    [KeyError] of a [summary_prompt] naming an unknown field, raised by
    [summarize] on the first (long) article, aborts the whole batch: no pair
    is returned, and the second article is never processed (one progress
    line only). *)
Theorem summarize_batch_aborts_on_template_error (E : Env) :
  fst (summarize_batch E (new_Summarizer cfg_url_template) [2; 1]%N 10 wx_st)
  = Raise (mk_exn KeyError (py "'url'")) /\
  List.length (out (snd (summarize_batch E (new_Summarizer cfg_url_template)
                           [2; 1]%N 10 wx_st))) = 1%nat.
Proof. split; reflexivity. Qed.

(** C6 (code bug): with provider "mystery" and a [summary_prompt]
    naming an unknown field, [summarize] on a 200-code-point article prints
    no warning and does not return [None], whatever the SDKs do: the
    [KeyError] of rendering the template, which comes before the provider
    switch and outside the [try], escapes. *)
Lemma summarize_unknown_provider_keyerror_escapes (E : Env) :
  summarize E
    (new_Summarizer [(py "provider", py "mystery"); (py "summary_prompt", py "{url}")])
    2%N wx_st
  = (Raise (mk_exn KeyError (py "'url'")), wx_st).
Proof. reflexivity. Qed.

(** X10: for a provider other than "claude" and "openai" and an
    article of at least 100 code points whose template renders, [summarize]
    returns [None], makes no client and no request, and prints exactly the
    warning line naming the provider. *)
Theorem summarize_unknown_provider (E : Env) (self : Summarizer) (st : St)
    (l : loc) (p : text) :
  provider self <> py "claude" -> provider self <> py "openai" ->
  (100 <= List.length (content (heap st l)))%nat ->
  py_format (format_field_ext E) (prompt_template self)
            (title (heap st l)) (content (heap st l)) = Ok p ->
  summarize E self l st
  = (Ok None, {| _client := _client st; heap := heap st;
                 out := out st ++ [Print (warn_prefix ++ provider self)] |}).
Proof.
  intros Hc Ho Hlen Hf.
  rewrite (summarize_long E self l st p Hlen Hf); unfold provider_dispatch, try_except.
  rewrite (text_eqb_false _ _ Hc), (text_eqb_false _ _ Ho); reflexivity.
Qed.

Definition wx_mystery : Summarizer := new_Summarizer [(py "provider", py "mystery")].

Lemma summarize_unknown_provider_witness :
  provider wx_mystery <> py "claude" /\ provider wx_mystery <> py "openai" /\
  (100 <= List.length (content (heap wx_st 2%N)))%nat /\
  py_format (format_field_ext (wx_env false)) (prompt_template wx_mystery)
            (title (heap wx_st 2%N)) (content (heap wx_st 2%N)) = Ok wx_prompt /\
  summarize (wx_env false) wx_mystery 2%N wx_st
  = (Ok None, {| _client := _client wx_st; heap := heap wx_st;
                 out := out wx_st ++ [Print (warn_prefix ++ provider wx_mystery)] |}).
Proof.
  assert (Hc : provider wx_mystery <> py "claude") by discriminate.
  assert (Ho : provider wx_mystery <> py "openai") by discriminate.
  assert (Hlen : (100 <= List.length (content (heap wx_st 2%N)))%nat) by (simpl; lia).
  assert (Hf : py_format (format_field_ext (wx_env false)) (prompt_template wx_mystery)
            (title (heap wx_st 2%N)) (content (heap wx_st 2%N)) = Ok wx_prompt)
    by reflexivity.
  split; [exact Hc | split; [exact Ho | split; [exact Hlen | split; [exact Hf |]]]].
  exact (summarize_unknown_provider (wx_env false) wx_mystery wx_st 2%N wx_prompt
           Hc Ho Hlen Hf).
Defined.

(** C7 (counterexample): the distinct templates "{title}" and "C" send the
    same request for an article titled "C": the dispatched prompt does not
    differ. *)
Lemma summarize_distinct_templates_same_prompt_counterexample :
  prompt_template (new_Summarizer [(py "summary_prompt", py "{title}")])
  <> prompt_template (new_Summarizer [(py "summary_prompt", py "C")]) /\
  out (snd (summarize (wx_env false)
              (new_Summarizer [(py "summary_prompt", py "{title}")]) 2%N wx_st))
  = out (snd (summarize (wx_env false)
                (new_Summarizer [(py "summary_prompt", py "C")]) 2%N wx_st)) /\
  In (MessagesCreate (AnthropicClient None)
        (mk_request (py "claude-sonnet-4-20250514") 500 [(py "user", py "C")]))
     (out (snd (summarize (wx_env false)
                  (new_Summarizer [(py "summary_prompt", py "{title}")]) 2%N wx_st))).
Proof.
  split; [discriminate | split; [reflexivity | vm_compute; auto]].
Qed.

(** C7 (amended): on an article of at least 100 code points, a template
    written with the placeholders [{title}] and [{content}], the escapes
    [{{] and [}}] and literal text without braces renders to the template
    with the title and content put verbatim in the placeholders
    ([render_spec]); every request [summarize] sends carries exactly that
    prompt as its single user message, and with a cached client and
    provider "claude" the request is sent.  The dispatched prompt is thus
    the rendering of the template; distinct templates may render alike. *)
Theorem summarize_renders_template (E : Env) (self : Summarizer) (st : St)
    (l : loc) (ps : list piece) :
  Forall (fun q => lit_ok q = true) ps ->
  prompt_template self = template_of ps ->
  (100 <= List.length (content (heap st l)))%nat ->
  py_format (format_field_ext E) (prompt_template self)
            (title (heap st l)) (content (heap st l))
  = Ok (render_spec (title (heap st l)) (content (heap st l)) ps) /\
  (exists new, out (snd (summarize E self l st)) = out st ++ new /\
     Forall (carries (render_spec (title (heap st l)) (content (heap st l)) ps)) new) /\
  (forall c, provider self = py "claude" -> _client st = Some c ->
     In (MessagesCreate c
           (mk_request (model self) 500
              [(py "user", render_spec (title (heap st l)) (content (heap st l)) ps)]))
        (out (snd (summarize E self l st)))).
Proof.
  intros Hps Ht Hlen.
  set (p := render_spec (title (heap st l)) (content (heap st l)) ps).
  assert (Hf : py_format (format_field_ext E) (prompt_template self)
                 (title (heap st l)) (content (heap st l)) = Ok p)
    by (rewrite Ht; apply py_format_pieces; exact Hps).
  split; [exact Hf|].
  rewrite (summarize_long E self l st p Hlen Hf).
  split; [exact (req_provider_branch E self p (title (heap st l)) st)|].
  intros c Hp Hc; unfold provider_dispatch, try_except; rewrite Hp.
  replace (text_eqb (py "claude") (py "claude")) with true by reflexivity.
  unfold _summarize_with_claude, _get_claude_client, bind, get_client; rewrite Hc.
  unfold ret, emit, lift; simpl.
  destruct (messages_create E c _) as [[|[t|n] blocks]|e]; simpl;
    try (destruct (derives_from_Exception _); simpl);
    repeat (rewrite in_app_iff; simpl); auto.
Qed.

Lemma summarize_renders_template_witness :
  let ps := [Lit (py "T: "); TitleField; Lit (py " / "); LBraceEsc; ContentField] in
  let self := new_Summarizer [(py "summary_prompt", template_of ps)] in
  Forall (fun q => lit_ok q = true) ps /\
  prompt_template self = template_of ps /\
  (100 <= List.length (content (heap wx_st 2%N)))%nat /\
  py_format (format_field_ext (wx_env false)) (prompt_template self)
            (title (heap wx_st 2%N)) (content (heap wx_st 2%N))
  = Ok (render_spec (title (heap wx_st 2%N)) (content (heap wx_st 2%N)) ps).
Proof.
  intros ps self.
  assert (H1 : Forall (fun q => lit_ok q = true) ps) by repeat constructor.
  assert (H2 : prompt_template self = template_of ps) by reflexivity.
  assert (H3 : (100 <= List.length (content (heap wx_st 2%N)))%nat) by (simpl; lia).
  split; [exact H1 | split; [exact H2 | split; [exact H3 |]]].
  exact (proj1 (summarize_renders_template (wx_env false) self wx_st 2%N ps H1 H2 H3)).
Defined.

(** C8: over any sequence of calls on a fresh instance, the cached client
    is absent with no client ever made, or is a client of the configured
    provider made exactly once; once cached it stays cached through every
    later call; acquiring a client when one is cached returns it and makes
    none; and the first network-backed [summarize] (long content, template
    rendered, no client yet, the SDK constructor succeeding) caches the
    client of its provider. *)
Theorem client_created_once_and_cached (E : Env) (self : Summarizer)
    (h : loc -> Article) (cs : list call) :
  client_inv self (run_calls E self cs (mk_st None h [])) /\
  (forall cs2 c, _client (run_calls E self cs (mk_st None h [])) = Some c ->
     _client (run_calls E self cs2 (run_calls E self cs (mk_st None h []))) = Some c) /\
  (forall st c, _client st = Some c ->
     _get_claude_client E self st = (Ok c, st) /\
     _get_openai_client E self st = (Ok c, st)) /\
  (forall st l p, _client st = None ->
     (100 <= List.length (content (heap st l)))%nat ->
     py_format (format_field_ext E) (prompt_template self)
               (title (heap st l)) (content (heap st l)) = Ok p ->
     (provider self = py "claude" -> anthropic_new E (api_key self) = Ok tt ->
        _client (snd (summarize E self l st)) = Some (AnthropicClient (api_key self))) /\
     (provider self = py "openai" ->
        openai_new E (openai_api_key self) (openai_api_base self) = Ok tt ->
        _client (snd (summarize E self l st))
        = Some (OpenAIClient (openai_api_key self) (openai_api_base self)))).
Proof.
  split; [apply inv_run_calls; reflexivity|].
  split; [intros cs2 c Hc; exact (stable_run_calls E self cs2 _ c Hc)|].
  split.
  { intros st c Hc; unfold _get_claude_client, _get_openai_client, bind, get_client.
    simpl; rewrite Hc; split; reflexivity. }
  intros st l p Hnone Hlen Hf.
  rewrite (summarize_long E self l st p Hlen Hf); unfold provider_dispatch, try_except.
  split; intros Hp Hnew; rewrite Hp.
  - replace (text_eqb (py "claude") (py "claude")) with true by reflexivity.
    unfold _summarize_with_claude, _get_claude_client, bind, get_client, lift.
    rewrite Hnone; simpl; rewrite Hnew; simpl.
    destruct (messages_create E _ _) as [[|[t|n] blocks]|e]; simpl;
      try (destruct (derives_from_Exception _); simpl); reflexivity.
  - replace (text_eqb (py "openai") (py "claude")) with false by reflexivity.
    replace (text_eqb (py "openai") (py "openai")) with true by reflexivity.
    unfold _summarize_with_openai, _get_openai_client, bind, get_client, lift.
    rewrite Hnone; simpl; rewrite Hnew; simpl.
    destruct (completions_create E _ _) as [[|ch chs]|e]; simpl;
      try (destruct (derives_from_Exception _); simpl); reflexivity.
Qed.

Definition wx_calls : list call := [CallSummarize 2%N; CallBatch [0; 1; 2]%N 10].

Lemma client_created_once_and_cached_witness :
  let s := run_calls (wx_env false) wx_default wx_calls (mk_st None wx_heap []) in
  client_inv wx_default s /\
  _client s = Some (AnthropicClient None) /\
  _client (run_calls (wx_env false) wx_default [CallSummarize 2%N] s)
  = Some (AnthropicClient None) /\
  _get_claude_client (wx_env false) wx_default s = (Ok (AnthropicClient None), s) /\
  _client (snd (summarize (wx_env false) wx_default 2%N wx_st))
  = Some (AnthropicClient (api_key wx_default)).
Proof.
  intro s.
  destruct (client_created_once_and_cached (wx_env false) wx_default wx_heap wx_calls)
    as (Hinv & Hstab & Hacq & Hnew).
  assert (Hs : _client s = Some (AnthropicClient None)) by reflexivity.
  split; [exact Hinv | split; [exact Hs | split; [exact (Hstab _ _ Hs) | split]]].
  - exact (proj1 (Hacq s _ Hs)).
  - apply (proj1 (Hnew wx_st 2%N wx_prompt eq_refl ltac:(simpl; lia) eq_refl));
      reflexivity.
Defined.

(** C9: neither [summarize] nor [summarize_batch] writes to the heap of
    article objects, and the pairs [summarize_batch] returns hold the
    input article references themselves, the processed slice of the input
    in order. *)
Theorem summarize_preserves_articles (E : Env) (self : Summarizer) (st : St)
    (l : loc) (ls : list loc) (n : Z) :
  heap (snd (summarize E self l st)) = heap st /\
  heap (snd (summarize_batch E self ls n st)) = heap st /\
  (forall rs, fst (summarize_batch E self ls n st) = Ok rs ->
     map fst rs = py_slice_to ls n).
Proof.
  split; [exact (proj1 (frame_summarize E self l st))|].
  split; [exact (proj1 (frame_summarize_batch E self ls n st))|].
  intros rs Hrs; unfold summarize_batch in Hrs.
  rewrite (proj1 (batch_loop_sim E self _ 0 _ st st ltac:(reflexivity))) in Hrs.
  exact (batch_spec_fst E self _ st rs Hrs).
Qed.

Definition wx_batch_result : list (loc * option text) :=
  match fst (summarize_batch (wx_env false) wx_default [0; 1; 2]%N 10 wx_st) with
  | Ok rs => rs
  | Raise _ => []
  end.

Lemma summarize_preserves_articles_witness :
  fst (summarize_batch (wx_env false) wx_default [0; 1; 2]%N 10 wx_st) = Ok wx_batch_result /\
  map fst wx_batch_result = py_slice_to [0; 1; 2]%N 10 /\
  heap (snd (summarize_batch (wx_env false) wx_default [0; 1; 2]%N 10 wx_st)) = heap wx_st.
Proof.
  destruct (summarize_preserves_articles (wx_env false) wx_default wx_st 2%N [0; 1; 2]%N 10)
    as (_ & Hheap & Hfst).
  assert (Hr : fst (summarize_batch (wx_env false) wx_default [0; 1; 2]%N 10 wx_st)
               = Ok wx_batch_result) by reflexivity.
  split; [exact Hr | split; [exact (Hfst _ Hr) | exact Hheap]].
Defined.

(** C10: on content shorter than 100 code points [summarize] returns the
    content or the placeholder and leaves the whole state unchanged (no
    warning, no client, no request), whatever the provider and the
    credentials; and with a provider other than "claude" and "openai" the
    cached client is never changed. *)
Theorem short_content_precedes_dispatch (E : Env) (self : Summarizer) (st : St) (l : loc) :
  ((List.length (content (heap st l)) < 100)%nat ->
     snd (summarize E self l st) = st /\
     fst (summarize E self l st)
     = Ok (Some (match content (heap st l) with
                 | [] => no_summary_text
                 | _ => content (heap st l)
                 end))) /\
  (provider self <> py "claude" -> provider self <> py "openai" ->
     _client (snd (summarize E self l st)) = _client st).
Proof.
  split.
  - intro Hlen; unfold summarize, bind, load.
    apply Nat.ltb_lt in Hlen; rewrite Hlen; simpl.
    split; reflexivity.
  - intros Hc Ho.
    destruct (Nat.ltb_spec (List.length (content (heap st l))) 100) as [Hlt|Hge].
    + unfold summarize, bind, load; apply Nat.ltb_lt in Hlt; rewrite Hlt; reflexivity.
    + destruct (py_format (format_field_ext E) (prompt_template self)
                  (title (heap st l)) (content (heap st l))) as [p|e] eqn:Hf.
      * rewrite (summarize_long E self l st p Hge Hf); unfold provider_dispatch, try_except.
        rewrite (text_eqb_false _ _ Hc), (text_eqb_false _ _ Ho); reflexivity.
      * rewrite (summarize_long_format_error E self l st e Hge Hf); reflexivity.
Qed.

Lemma short_content_precedes_dispatch_witness :
  (List.length (content (heap wx_st 1%N)) < 100)%nat /\
  provider wx_mystery <> py "claude" /\ provider wx_mystery <> py "openai" /\
  snd (summarize (wx_env false) wx_mystery 1%N wx_st) = wx_st /\
  _client (snd (summarize (wx_env false) wx_mystery 2%N wx_st)) = _client wx_st.
Proof.
  assert (Hlen : (List.length (content (heap wx_st 1%N)) < 100)%nat) by (simpl; lia).
  assert (Hc : provider wx_mystery <> py "claude") by discriminate.
  assert (Ho : provider wx_mystery <> py "openai") by discriminate.
  split; [exact Hlen | split; [exact Hc | split; [exact Ho | split]]].
  - exact (proj1 (proj1 (short_content_precedes_dispatch (wx_env false) wx_mystery wx_st 1%N) Hlen)).
  - exact (proj2 (short_content_precedes_dispatch (wx_env false) wx_mystery wx_st 2%N) Hc Ho).
Defined.

(* ------------------------------------------------------------------ *)
(** ** Further properties of the module *)

(** The default template, cut at its two placeholders. *)
Definition dp_head : text :=
  [35831; 29992; 20013; 25991; 20026; 20197; 19979; 25991; 31456; 29983; 25104;
   31616; 27905; 25688; 35201; 65288; 51; 45; 53; 21477; 35805; 65289; 65306;
   10; 26631; 39064; 65306]%N.
Definition dp_mid : text := [10; 20869; 23481; 65306]%N.
Definition dp_tail : text :=
  [10; 10; 35201; 27714; 65306; 31361; 20986; 26680; 24515; 35266; 28857; 65292;
   24110; 21161; 35835; 32773; 24555; 36895; 21028; 26029; 26159; 21542; 20540;
   24471; 38405; 35835; 21407; 25991; 12290]%N.

Lemma default_prompt_pieces :
  _default_prompt = template_of [Lit dp_head; TitleField; Lit dp_mid; ContentField; Lit dp_tail].
Proof. vm_compute; reflexivity. Qed.

Lemma default_prompt_renders (fe : text -> text -> text -> Res text) (t c : text) :
  py_format fe _default_prompt t c = Ok (dp_head ++ t ++ dp_mid ++ c ++ dp_tail).
Proof.
  rewrite default_prompt_pieces, py_format_pieces by repeat constructor.
  unfold render_spec; simpl; rewrite ?app_nil_r; reflexivity.
Qed.

Lemma try_except_escapes {A} (m : M A) (h : exn -> M A) (s : St) (e : exn) :
  (forall e' s', exists v, fst (h e' s') = Ok v) ->
  fst (try_except m h s) = Raise e -> derives_from_Exception (exn_class e) = false.
Proof.
  intros Hh; unfold try_except; destruct (m s) as [[x|e'] s']; simpl; [discriminate|].
  destruct (derives_from_Exception (exn_class e')) eqn:Hd.
  - destruct (Hh e' s') as [v Hv]; rewrite Hv; discriminate.
  - simpl; intro Hr; injection Hr as <-; exact Hd.
Qed.

Lemma summarize_escapes (E : Env) (self : Summarizer) (st : St) (l : loc) (e : exn) :
  (exists p, py_format (format_field_ext E) (prompt_template self)
               (title (heap st l)) (content (heap st l)) = Ok p) ->
  fst (summarize E self l st) = Raise e ->
  derives_from_Exception (exn_class e) = false.
Proof.
  intros [p Hf] Hr.
  destruct (Nat.ltb_spec (List.length (content (heap st l))) 100) as [Hlt|Hge].
  - unfold summarize, bind, load in Hr; apply Nat.ltb_lt in Hlt; rewrite Hlt in Hr.
    discriminate.
  - rewrite (summarize_long E self l st p Hge Hf) in Hr; unfold provider_dispatch in Hr.
    refine (try_except_escapes _ _ st e _ Hr).
    intros e' s'; exists None; reflexivity.
Qed.

Lemma bind_escapes {A B} (m : M A) (k : A -> M B) (s : St) (e : exn) :
  fst (bind m k s) = Raise e ->
  fst (m s) = Raise e \/ exists x s', m s = (Ok x, s') /\ fst (k x s') = Raise e.
Proof.
  unfold bind; destruct (m s) as [[x|e'] s']; simpl; intro H.
  - right; exists x, s'; split; [reflexivity | exact H].
  - left; injection H as ->; reflexivity.
Qed.

Lemma batch_loop_escapes (E : Env) (self : Summarizer) (ls : list loc) :
  (forall t c, exists p, py_format (format_field_ext E) (prompt_template self) t c = Ok p) ->
  forall i total st e,
  fst (batch_loop E self i total ls st) = Raise e ->
  derives_from_Exception (exn_class e) = false.
Proof.
  intro Hren; induction ls as [|l ls IH]; intros i total st e Hr; [discriminate|].
  apply bind_escapes in Hr as [Hr | (a & s1 & _ & Hr)]; [discriminate|].
  apply bind_escapes in Hr as [Hr | (u & s2 & _ & Hr)]; [discriminate|].
  apply bind_escapes in Hr as [Hr | (v & s3 & _ & Hr)].
  - exact (summarize_escapes E self s2 l e (Hren _ _) Hr).
  - apply bind_escapes in Hr as [Hr | (rs & s4 & _ & Hr)]; [exact (IH _ _ _ _ Hr)|].
    discriminate.
Qed.

(** A provider call interrupted by the user. *)
Definition wx_env_interrupt : Env :=
  mk_env (fun _ => Ok tt) (fun _ _ => Ok tt)
    (fun _ _ => Raise (mk_exn KeyboardInterrupt []))
    (fun _ _ => Raise (mk_exn KeyboardInterrupt []))
    (fun _ _ _ => Ok []).

(** X1: with no [summary_prompt] in the configuration, the template is the
    default one, and it renders for every title and content, putting both
    verbatim between its fixed Chinese text. *)
Theorem default_template_renders (cfg : config) (fe : text -> text -> text -> Res text)
    (t c : text) :
  dict_get cfg (py "summary_prompt") = None ->
  py_format fe (prompt_template (new_Summarizer cfg)) t c
  = Ok (dp_head ++ t ++ dp_mid ++ c ++ dp_tail).
Proof.
  intro Hn; unfold new_Summarizer, dict_get_default; simpl; rewrite Hn.
  apply default_prompt_renders.
Qed.

Lemma default_template_renders_witness :
  dict_get [(py "provider", py "openai")] (py "summary_prompt") = None /\
  py_format (fun _ _ _ => Ok []) (prompt_template (new_Summarizer [(py "provider", py "openai")]))
    (py "T") (py "C")
  = Ok (dp_head ++ py "T" ++ dp_mid ++ py "C" ++ dp_tail).
Proof.
  assert (Hn : dict_get [(py "provider", py "openai")] (py "summary_prompt") = None)
    by reflexivity.
  split; [exact Hn | exact (default_template_renders _ _ _ _ Hn)].
Defined.

(** X2: when the template renders for the article, the only exceptions
    that can leave [summarize] are those not deriving from [Exception]
    ([KeyboardInterrupt], [SystemExit]). *)
Theorem summarize_only_base_exceptions_escape (E : Env) (self : Summarizer)
    (st : St) (l : loc) (e : exn) :
  (exists p, py_format (format_field_ext E) (prompt_template self)
               (title (heap st l)) (content (heap st l)) = Ok p) ->
  fst (summarize E self l st) = Raise e ->
  derives_from_Exception (exn_class e) = false.
Proof. exact (summarize_escapes E self st l e). Qed.

Lemma summarize_only_base_exceptions_escape_witness :
  (exists p, py_format (format_field_ext wx_env_interrupt) (prompt_template wx_default)
               (title (heap wx_st 2%N)) (content (heap wx_st 2%N)) = Ok p) /\
  fst (summarize wx_env_interrupt wx_default 2%N wx_st) = Raise (mk_exn KeyboardInterrupt []) /\
  derives_from_Exception (exn_class (mk_exn KeyboardInterrupt [])) = false.
Proof.
  assert (H1 : exists p, py_format (format_field_ext wx_env_interrupt) (prompt_template wx_default)
               (title (heap wx_st 2%N)) (content (heap wx_st 2%N)) = Ok p)
    by (eexists; reflexivity).
  assert (H2 : fst (summarize wx_env_interrupt wx_default 2%N wx_st)
               = Raise (mk_exn KeyboardInterrupt [])) by reflexivity.
  split; [exact H1 | split; [exact H2 | exact (summarize_only_base_exceptions_escape _ _ _ _ _ H1 H2)]].
Defined.

(** X3: with no [summary_prompt] in the configuration, the only exceptions
    that can leave [summarize_batch] are those not deriving from
    [Exception]: every per-article error is absorbed and the batch runs to
    its end. *)
Theorem summarize_batch_default_only_base_exceptions_escape (E : Env) (cfg : config)
    (ls : list loc) (n : Z) (st : St) (e : exn) :
  dict_get cfg (py "summary_prompt") = None ->
  fst (summarize_batch E (new_Summarizer cfg) ls n st) = Raise e ->
  derives_from_Exception (exn_class e) = false.
Proof.
  intros Hn Hr; unfold summarize_batch in Hr.
  refine (batch_loop_escapes E (new_Summarizer cfg) _ _ _ _ st e Hr).
  intros t c; eexists.
  unfold new_Summarizer, dict_get_default; simpl; rewrite Hn.
  apply default_prompt_renders.
Qed.

Lemma summarize_batch_default_only_base_exceptions_escape_witness :
  dict_get [] (py "summary_prompt") = None /\
  fst (summarize_batch wx_env_interrupt (new_Summarizer []) [1; 2]%N 10 wx_st)
  = Raise (mk_exn KeyboardInterrupt []) /\
  derives_from_Exception (exn_class (mk_exn KeyboardInterrupt [])) = false.
Proof.
  assert (H1 : dict_get [] (py "summary_prompt") = None) by reflexivity.
  assert (H2 : fst (summarize_batch wx_env_interrupt (new_Summarizer []) [1; 2]%N 10 wx_st)
               = Raise (mk_exn KeyboardInterrupt [])) by reflexivity.
  split; [exact H1 | split; [exact H2 |]].
  exact (summarize_batch_default_only_base_exceptions_escape _ _ _ _ _ _ H1 H2).
Defined.

(** X4: with provider "claude" and a cached client, a long article whose
    template renders to [p] is summarized by exactly one [messages.create]
    request (the configured model, [max_tokens=500], one user message [p]),
    and no client is made.  When the response arrives, the summary is the
    text of its first content block; an empty block list or a first block
    without text gives [None] and one error line. *)
Theorem summarize_claude_response (E : Env) (self : Summarizer) (st : St) (l : loc)
    (p : text) (c : client) (blocks : list content_block) :
  provider self = py "claude" -> _client st = Some c ->
  (100 <= List.length (content (heap st l)))%nat ->
  py_format (format_field_ext E) (prompt_template self)
            (title (heap st l)) (content (heap st l)) = Ok p ->
  messages_create E c (mk_request (model self) 500 [(py "user", p)]) = Ok blocks ->
  let err m := Print (error_prefix ++ title (heap st l) ++ py "): " ++ m) in
  summarize E self l st
  = (Ok (match blocks with TextBlock t :: _ => Some t | _ => None end),
     {| _client := Some c; heap := heap st;
        out := out st ++ MessagesCreate c (mk_request (model self) 500 [(py "user", p)])
               :: match blocks with
                  | [] => [err (py "list index out of range")]
                  | TextBlock _ :: _ => []
                  | OtherBlock n :: _ =>
                      [err ([39%N] ++ n ++ py "' object has no attribute 'text'")]
                  end |}).
Proof.
  intros Hp Hc Hlen Hf Hm err.
  rewrite (summarize_long E self l st p Hlen Hf); unfold provider_dispatch, try_except.
  rewrite Hp; replace (text_eqb (py "claude") (py "claude")) with true by reflexivity.
  unfold _summarize_with_claude, _get_claude_client, bind, get_client; rewrite Hc.
  unfold ret, emit, lift; simpl; rewrite Hm.
  destruct blocks as [|[t|n] blocks]; simpl; rewrite ?Hc, <- ?app_assoc; reflexivity.
Qed.

Definition wx_cached : St := mk_st (Some (AnthropicClient None)) wx_heap [].

Lemma summarize_claude_response_witness :
  provider wx_default = py "claude" /\ _client wx_cached = Some (AnthropicClient None) /\
  (100 <= List.length (content (heap wx_cached 2%N)))%nat /\
  py_format (format_field_ext (wx_env false)) (prompt_template wx_default)
            (title (heap wx_cached 2%N)) (content (heap wx_cached 2%N)) = Ok wx_prompt /\
  messages_create (wx_env false) (AnthropicClient None)
    (mk_request (model wx_default) 500 [(py "user", wx_prompt)]) = Ok [TextBlock (py "S")] /\
  fst (summarize (wx_env false) wx_default 2%N wx_cached) = Ok (Some (py "S")).
Proof.
  assert (H1 : provider wx_default = py "claude") by reflexivity.
  assert (H2 : _client wx_cached = Some (AnthropicClient None)) by reflexivity.
  assert (H3 : (100 <= List.length (content (heap wx_cached 2%N)))%nat) by (simpl; lia).
  assert (H4 : py_format (format_field_ext (wx_env false)) (prompt_template wx_default)
            (title (heap wx_cached 2%N)) (content (heap wx_cached 2%N)) = Ok wx_prompt)
    by reflexivity.
  assert (H5 : messages_create (wx_env false) (AnthropicClient None)
    (mk_request (model wx_default) 500 [(py "user", wx_prompt)]) = Ok [TextBlock (py "S")])
    by reflexivity.
  do 5 (split; [assumption|]).
  rewrite (summarize_claude_response _ _ _ _ _ _ _ H1 H2 H3 H4 H5); reflexivity.
Defined.

(** X5: with provider "openai" and a cached client, a long article whose
    template renders to [p] is summarized by exactly one
    [chat.completions.create] request (the configured [openai_model],
    [max_tokens=500], one user message [p]).  The summary is the
    [message.content] of the first choice, which may itself be [None] with
    no error printed; an empty choice list gives [None] and one error
    line. *)
Theorem summarize_openai_response (E : Env) (self : Summarizer) (st : St) (l : loc)
    (p : text) (c : client) (choices : list choice) :
  provider self = py "openai" -> _client st = Some c ->
  (100 <= List.length (content (heap st l)))%nat ->
  py_format (format_field_ext E) (prompt_template self)
            (title (heap st l)) (content (heap st l)) = Ok p ->
  completions_create E c (mk_request (openai_model self) 500 [(py "user", p)]) = Ok choices ->
  summarize E self l st
  = (Ok (match choices with ch :: _ => message_content ch | [] => None end),
     {| _client := Some c; heap := heap st;
        out := out st ++ CompletionsCreate c (mk_request (openai_model self) 500 [(py "user", p)])
               :: match choices with
                  | [] => [Print (error_prefix ++ title (heap st l) ++ py "): "
                                  ++ py "list index out of range")]
                  | _ :: _ => []
                  end |}).
Proof.
  intros Hp Hc Hlen Hf Hm.
  rewrite (summarize_long E self l st p Hlen Hf); unfold provider_dispatch, try_except.
  rewrite Hp; replace (text_eqb (py "openai") (py "claude")) with false by reflexivity.
  replace (text_eqb (py "openai") (py "openai")) with true by reflexivity.
  unfold _summarize_with_openai, _get_openai_client, bind, get_client; rewrite Hc.
  unfold ret, emit, lift; simpl; rewrite Hm.
  destruct choices as [|ch choices]; simpl; rewrite ?Hc, <- ?app_assoc; reflexivity.
Qed.

Definition wx_openai : Summarizer := new_Summarizer [(py "provider", py "openai")].
Definition wx_null_env : Env :=
  mk_env (fun _ => Ok tt) (fun _ _ => Ok tt) (fun _ _ => Ok [])
    (fun _ _ => Ok [mk_choice None]) (fun _ _ _ => Ok []).
Definition wx_cached_openai : St :=
  mk_st (Some (OpenAIClient None (py "https://api.openai.com/v1"))) wx_heap [].

Lemma summarize_openai_response_witness :
  provider wx_openai = py "openai" /\
  _client wx_cached_openai = Some (OpenAIClient None (py "https://api.openai.com/v1")) /\
  (100 <= List.length (content (heap wx_cached_openai 2%N)))%nat /\
  py_format (format_field_ext wx_null_env) (prompt_template wx_openai)
            (title (heap wx_cached_openai 2%N)) (content (heap wx_cached_openai 2%N)) = Ok wx_prompt /\
  completions_create wx_null_env (OpenAIClient None (py "https://api.openai.com/v1"))
    (mk_request (openai_model wx_openai) 500 [(py "user", wx_prompt)]) = Ok [mk_choice None] /\
  fst (summarize wx_null_env wx_openai 2%N wx_cached_openai) = Ok None.
Proof.
  assert (H1 : provider wx_openai = py "openai") by reflexivity.
  assert (H2 : _client wx_cached_openai = Some (OpenAIClient None (py "https://api.openai.com/v1")))
    by reflexivity.
  assert (H3 : (100 <= List.length (content (heap wx_cached_openai 2%N)))%nat) by (simpl; lia).
  assert (H4 : py_format (format_field_ext wx_null_env) (prompt_template wx_openai)
            (title (heap wx_cached_openai 2%N)) (content (heap wx_cached_openai 2%N)) = Ok wx_prompt)
    by reflexivity.
  assert (H5 : completions_create wx_null_env (OpenAIClient None (py "https://api.openai.com/v1"))
    (mk_request (openai_model wx_openai) 500 [(py "user", wx_prompt)]) = Ok [mk_choice None])
    by reflexivity.
  do 5 (split; [assumption|]).
  rewrite (summarize_openai_response _ _ _ _ _ _ _ H1 H2 H3 H4 H5); reflexivity.
Defined.

(** X6: a failed client construction is not cached.  With no client yet,
    a long article whose template renders, and the SDK constructor of the
    configured provider raising an error (e.g. [openai.OpenAI] without an
    API key), [summarize] returns [None], sends no request, leaves the
    client slot empty (so the next call constructs again) and prints one
    error line with the title and [str(e)]. *)
Theorem summarize_client_construction_failure (E : Env) (self : Summarizer) (st : St)
    (l : loc) (p : text) (e : exn) :
  _client st = None ->
  (100 <= List.length (content (heap st l)))%nat ->
  py_format (format_field_ext E) (prompt_template self)
            (title (heap st l)) (content (heap st l)) = Ok p ->
  derives_from_Exception (exn_class e) = true ->
  (provider self = py "claude" /\ anthropic_new E (api_key self) = Raise e) \/
  (provider self = py "openai" /\
   openai_new E (openai_api_key self) (openai_api_base self) = Raise e) ->
  summarize E self l st
  = (Ok None, {| _client := None; heap := heap st;
                 out := out st ++ [Print (error_prefix ++ title (heap st l)
                                          ++ py "): " ++ exn_str e)] |}).
Proof.
  intros Hn Hlen Hf Hd Hcase.
  rewrite (summarize_long E self l st p Hlen Hf); unfold provider_dispatch, try_except.
  destruct Hcase as [[Hp Hnew] | [Hp Hnew]]; rewrite Hp.
  - replace (text_eqb (py "claude") (py "claude")) with true by reflexivity.
    unfold _summarize_with_claude, _get_claude_client, bind, get_client, lift.
    rewrite Hn, Hnew; simpl; rewrite Hd, Hn; reflexivity.
  - replace (text_eqb (py "openai") (py "claude")) with false by reflexivity.
    replace (text_eqb (py "openai") (py "openai")) with true by reflexivity.
    unfold _summarize_with_openai, _get_openai_client, bind, get_client, lift.
    rewrite Hn, Hnew; simpl; rewrite Hd, Hn; reflexivity.
Qed.

Definition wx_nokey_env : Env :=
  mk_env (fun _ => Ok tt)
    (fun k _ => match k with
                | None => Raise (mk_exn APIError (py "The api_key client option must be set"))
                | Some _ => Ok tt
                end)
    (fun _ _ => Ok []) (fun _ _ => Ok []) (fun _ _ _ => Ok []).

Lemma summarize_client_construction_failure_witness :
  let e := mk_exn APIError (py "The api_key client option must be set") in
  _client wx_st = None /\
  (100 <= List.length (content (heap wx_st 2%N)))%nat /\
  py_format (format_field_ext wx_nokey_env) (prompt_template wx_openai)
            (title (heap wx_st 2%N)) (content (heap wx_st 2%N)) = Ok wx_prompt /\
  derives_from_Exception (exn_class e) = true /\
  _client (snd (summarize wx_nokey_env wx_openai 2%N wx_st)) = None.
Proof.
  intro e.
  assert (H1 : _client wx_st = None) by reflexivity.
  assert (H2 : (100 <= List.length (content (heap wx_st 2%N)))%nat) by (simpl; lia).
  assert (H3 : py_format (format_field_ext wx_nokey_env) (prompt_template wx_openai)
            (title (heap wx_st 2%N)) (content (heap wx_st 2%N)) = Ok wx_prompt) by reflexivity.
  assert (H4 : derives_from_Exception (exn_class e) = true) by reflexivity.
  do 4 (split; [assumption|]).
  rewrite (summarize_client_construction_failure _ _ _ _ _ e H1 H2 H3 H4);
    [reflexivity | right; split; reflexivity].
Defined.

(** ** With an unknown provider only lines are printed *)

Definition prints_rel (s s' : St) : Prop :=
  _client s' = _client s /\
  exists new, out s' = out s ++ new /\ Forall (fun ev => exists line, ev = Print line) new.

#[export] Instance prints_rel_preorder : PreOrder prints_rel.
Proof.
  split.
  - intro s; split; [reflexivity | exists []; split; [now rewrite app_nil_r | constructor]].
  - intros s1 s2 s3 [C1 [n1 [E1 F1]]] [C2 [n2 [E2 F2]]]; split; [congruence|].
    exists (n1 ++ n2); split; [rewrite E2, E1; symmetry; apply app_assoc|].
    apply Forall_app; split; assumption.
Qed.

Lemma keeps_prints_print (line : text) : keeps prints_rel (print line).
Proof.
  intro s; split; [reflexivity | exists [Print line]; split; [reflexivity|]].
  constructor; [eexists; reflexivity | constructor].
Qed.

Lemma prints_summarize (E : Env) (self : Summarizer) (l : loc) :
  provider self <> py "claude" -> provider self <> py "openai" ->
  keeps prints_rel (summarize E self l).
Proof.
  intros Hc Ho; unfold summarize.
  keeps_tac ltac:(first
    [ apply keeps_prints_print
    | exfalso; match goal with
               | H : text_eqb (provider _) _ = true |- _ => apply text_eqb_spec in H
               end; tauto ]).
Qed.

Lemma prints_batch_loop (E : Env) (self : Summarizer) (ls : list loc) :
  provider self <> py "claude" -> provider self <> py "openai" ->
  forall i total, keeps prints_rel (batch_loop E self i total ls).
Proof.
  intros Hc Ho; induction ls as [|l ls IH]; intros i total; simpl;
    keeps_tac ltac:(first [ apply keeps_prints_print | apply prints_summarize; assumption
                          | apply IH ]).
Qed.

Lemma prints_run_call (E : Env) (self : Summarizer) (c : call) :
  provider self <> py "claude" -> provider self <> py "openai" ->
  keeps prints_rel (run_call E self c).
Proof.
  intros Hc Ho; destruct c; simpl; unfold summarize_batch;
    keeps_tac ltac:(first [ apply prints_summarize; assumption
                          | apply prints_batch_loop; assumption ]).
Qed.

Lemma prints_run_calls (E : Env) (self : Summarizer) (cs : list call) :
  provider self <> py "claude" -> provider self <> py "openai" ->
  forall s, prints_rel s (run_calls E self cs s).
Proof.
  intros Hc Ho; induction cs as [|c cs IH]; intro s; simpl; [reflexivity|].
  transitivity (snd (run_call E self c s)); [apply prints_run_call; assumption | apply IH].
Qed.

(** X7: with a provider other than "claude" and "openai", no sequence of
    calls on a fresh instance ever makes a client or sends a request:
    every observable event is a printed line. *)
Theorem unknown_provider_never_calls (E : Env) (self : Summarizer)
    (h : loc -> Article) (cs : list call) :
  provider self <> py "claude" -> provider self <> py "openai" ->
  _client (run_calls E self cs (mk_st None h [])) = None /\
  Forall (fun ev => exists line, ev = Print line) (out (run_calls E self cs (mk_st None h []))).
Proof.
  intros Hc Ho.
  destruct (prints_run_calls E self cs Hc Ho (mk_st None h [])) as [C [new [Eo F]]].
  split; [exact C | rewrite Eo; exact F].
Qed.

Lemma unknown_provider_never_calls_witness :
  provider wx_mystery <> py "claude" /\ provider wx_mystery <> py "openai" /\
  _client (run_calls (wx_env false) wx_mystery wx_calls (mk_st None wx_heap [])) = None.
Proof.
  assert (Hc : provider wx_mystery <> py "claude") by discriminate.
  assert (Ho : provider wx_mystery <> py "openai") by discriminate.
  split; [exact Hc | split; [exact Ho |]].
  exact (proj1 (unknown_provider_never_calls (wx_env false) wx_mystery wx_heap wx_calls Hc Ho)).
Defined.

(** ** Batches of short articles *)

(** What [summarize] returns for an article shorter than 100 characters. *)
Definition short_result (a : Article) : option text :=
  Some (match content a with [] => no_summary_text | _ => content a end).

(** The progress lines [summarize_batch] prints from index [i]. *)
Fixpoint progress_lines (h : loc -> Article) (i total : Z) (ls : list loc) : list event :=
  match ls with
  | [] => []
  | l :: rest =>
      Print (progress_prefix ++ str_Z (i + 1) ++ py "/" ++ str_Z total
             ++ py ") " ++ firstn 50 (title (h l)) ++ py "...")
      :: progress_lines h (i + 1) total rest
  end.

Lemma summarize_short_st (E : Env) (self : Summarizer) (l : loc) (s : St) :
  (List.length (content (heap s l)) < 100)%nat ->
  summarize E self l s = (Ok (short_result (heap s l)), s).
Proof.
  intro Hlen; unfold summarize, bind, load.
  apply Nat.ltb_lt in Hlen; rewrite Hlen; reflexivity.
Qed.

Lemma batch_loop_short (E : Env) (self : Summarizer) (c : option client)
    (h : loc -> Article) (total : Z) (ls : list loc) :
  Forall (fun l => (List.length (content (h l)) < 100)%nat) ls ->
  forall i o,
  batch_loop E self i total ls (mk_st c h o)
  = (Ok (map (fun l => (l, short_result (h l))) ls),
     mk_st c h (o ++ progress_lines h i total ls)).
Proof.
  induction 1 as [|l ls Hl Hls IH]; intros i o.
  - simpl; rewrite app_nil_r; reflexivity.
  - cbn [batch_loop]; unfold bind at 1; unfold load at 1.
    unfold bind at 1; unfold print at 1, emit at 1.
    unfold bind at 1; cbn [_client heap out].
    rewrite (summarize_short_st E self l (mk_st c h (o ++ _)) Hl).
    unfold bind at 1; rewrite IH; unfold ret.
    cbn [progress_lines]; rewrite <- app_assoc; reflexivity.
Qed.

(** X8: when every article that [summarize_batch] keeps (the slice
    [articles[:max_articles]]) is shorter than 100 characters, the batch
    returns each kept article with its own content (or the placeholder for
    an empty one), touches neither the client nor the articles, and prints
    exactly one progress line per kept article, numbered from 1 over the
    total [min(len(articles), max_articles)]. *)
Theorem summarize_batch_all_short (E : Env) (self : Summarizer) (c : option client)
    (h : loc -> Article) (o : list event) (ls : list loc) (n : Z) :
  Forall (fun l => (List.length (content (h l)) < 100)%nat) (py_slice_to ls n) ->
  summarize_batch E self ls n (mk_st c h o)
  = (Ok (map (fun l => (l, short_result (h l))) (py_slice_to ls n)),
     mk_st c h (o ++ progress_lines h 0 (Z.min (Z.of_nat (List.length ls)) n)
                                     (py_slice_to ls n))).
Proof.
  intro Hs; unfold summarize_batch; apply batch_loop_short; exact Hs.
Qed.

Lemma summarize_batch_all_short_witness :
  Forall (fun l => (List.length (content (wx_heap l)) < 100)%nat)
         (py_slice_to [0%N; 1%N; 0%N] (-1)) /\
  out (snd (summarize_batch (wx_env false) wx_default [0%N; 1%N; 0%N] (-1)
                             (mk_st None wx_heap [])))
  = progress_lines wx_heap 0 (-1) [0%N; 1%N].
Proof.
  assert (Hs : Forall (fun l => (List.length (content (wx_heap l)) < 100)%nat)
                      (py_slice_to [0%N; 1%N; 0%N] (-1)))
    by (vm_compute; repeat constructor).
  split; [exact Hs|].
  rewrite (summarize_batch_all_short (wx_env false) wx_default None wx_heap []
             [0%N; 1%N; 0%N] (-1) Hs).
  reflexivity.
Defined.

Lemma py_slice_to_neg {A} (xs : list A) (n : Z) :
  (n < 0)%Z -> py_slice_to xs n = firstn (Z.to_nat (Z.of_nat (List.length xs) + n)) xs.
Proof.
  intro Hn; unfold py_slice_to.
  destruct (Z.ltb_spec n 0); [|lia].
  f_equal; lia.
Qed.

(** X9: a negative [max_articles] counts from the end, as Python slicing
    does: when the batch completes, it has summarised all but the last
    [-max_articles] articles, in order (none when [-max_articles] is at
    least the number of articles). *)
Theorem summarize_batch_negative_max (E : Env) (self : Summarizer) (ls : list loc)
    (n : Z) (st : St) :
  (n < 0)%Z ->
  forall rs, fst (summarize_batch E self ls n st) = Ok rs ->
  map fst rs = firstn (Z.to_nat (Z.of_nat (List.length ls) + n)) ls /\
  Z.of_nat (List.length rs) = Z.max 0 (Z.of_nat (List.length ls) + n).
Proof.
  intros Hn rs Hrs; unfold summarize_batch in Hrs.
  rewrite (proj1 (batch_loop_sim E self _ 0 _ st st ltac:(reflexivity))) in Hrs.
  pose proof (batch_spec_fst E self _ st rs Hrs) as Hm.
  rewrite py_slice_to_neg in Hm by exact Hn.
  split; [exact Hm|].
  rewrite <- (length_map fst rs), Hm, length_firstn; lia.
Qed.

Lemma summarize_batch_negative_max_witness :
  (-1 < 0)%Z /\
  map fst (match fst (summarize_batch (wx_env false) wx_default [0%N; 1%N; 2%N] (-1) wx_st)
           with Ok rs => rs | Raise _ => [] end) = [0%N; 1%N].
Proof.
  assert (Hn : (-1 < 0)%Z) by lia.
  split; [exact Hn|].
  destruct (summarize_batch (wx_env false) wx_default [0%N; 1%N; 2%N] (-1) wx_st)
    as [[rs|e] s'] eqn:Hb.
  - exact (proj1 (summarize_batch_negative_max _ _ _ _ _ Hn rs
                    (f_equal fst Hb))).
  - vm_compute in Hb; discriminate.
Defined.
